(** * Kitten Clicker backend: presence tracking, offline-points accrual,
      review log and store loading

    The repository holds two variants of [server.js]:
    - [src/server.js] persists [{totalPlayers, reviews}] to [data.json]
      (module [DataVariant] below);
    - [src/unnamed/part_000] keeps an offline-points map persisted to
      [offlineData.json] (module [OfflineVariant] below).

    Both are Express applications running on a single-threaded event
    loop: every callback runs to completion, so a request (middleware,
    then route handler) and a [close] callback are modelled as atomic
    steps on an explicit state.

    Modelling conventions.
    - JavaScript numbers that the program computes with (timestamps from
      [Date.now()], point balances, counters) are integers and are
      modelled in [Z]; fractional and non-numeric client-supplied values
      for [points]/[lastSeen] are outside the model.
    - An offline record, whether created by the server, sent by a client
      or read from the store file, is an object; a payload that is not an
      object is outside the model.
    - A property that may be absent from an object is an [option]; the
      operator [a || b] on such a property is [or_else].
    - Strings are sequences of Latin-1 code units ([string]).
    - The value [Date.now() + Math.random()] used as a last-resort key is
      a number, never equal to a string key; it is represented by an
      integer tag chosen by the environment, since only key identity
      matters.
    - Writing the store file ([saveData], [persistOfflineData]) and the
      timers of the event stream leave the in-memory state alone and are
      not part of the state below; reading the store file at start-up
      is ([loadData], [loadOfflineData]). *)

From Stdlib Require Import Ascii String ZArith Lia.
From stdpp Require Import base decidable countable numbers list strings gmap.

Local Open Scope Z_scope.

(** ** JavaScript idioms used by both variants *)

(** Truthiness of a string: only the empty string is falsy. *)
Definition truthy_string (s : string) : bool :=
  match s with
  | EmptyString => false
  | String _ _ => true
  end.

(** Truthiness of an optional string property ([undefined] is falsy). *)
Definition truthy_ostring (o : option string) : bool :=
  match o with
  | Some s => truthy_string s
  | None => false
  end.

(** [a || d] where [a] is an optional integer property: [undefined] and
    [0] are falsy and yield [d]. *)
Definition or_else (a : option Z) (d : Z) : Z :=
  match a with
  | Some v => if v =? 0 then d else v
  | None => d
  end.

(** The code units that [String.prototype.trim] strips, within Latin-1:
    TAB, LF, VT, FF, CR, SPACE and NBSP. *)
Definition is_js_space (c : ascii) : bool :=
  let n := nat_of_ascii c in
  ((9 <=? n)%nat && (n <=? 13)%nat) || (n =? 32)%nat || (n =? 160)%nat.

Fixpoint trim_start (s : string) : string :=
  match s with
  | EmptyString => EmptyString
  | String c s' => if is_js_space c then trim_start s' else s
  end.

(** Strips trailing white space: a character is kept when something
    non-blank follows it or it is itself non-blank. *)
Fixpoint trim_end (s : string) : string :=
  match s with
  | EmptyString => EmptyString
  | String c s' =>
      match trim_end s' with
      | EmptyString => if is_js_space c then EmptyString else String c EmptyString
      | rest => String c rest
      end
  end.

Definition trim (s : string) : string := trim_end (trim_start s).

(** [s.split(',')[0]]: the part of [s] before its first comma. *)
Fixpoint split_comma_head (s : string) : string :=
  match s with
  | EmptyString => EmptyString
  | String c s' =>
      if (nat_of_ascii c =? 44)%nat then EmptyString
      else String c (split_comma_head s')
  end.

(** ** Player keys *)

Inductive ClientId :=
  | IdStr (s : string)
  | IdNum (n : Z).

#[global] Instance ClientId_eq_dec : EqDecision ClientId.
Proof. solve_decision. Defined.

#[global] Instance ClientId_countable : Countable ClientId.
Proof.
  refine (inj_countable'
            (fun k => match k with IdStr s => inl s | IdNum n => inr n end)
            (fun x => match x with inl s => IdStr s | inr n => IdNum n end) _).
  by intros [].
Defined.

(** ** Reviews *)

(** The [timestamp] of a review is whatever the client sent: a number or
    a string. *)
Inductive Stamp :=
  | StampNum (n : Z)
  | StampStr (s : string).

Definition truthy_stamp (t : Stamp) : bool :=
  match t with
  | StampNum n => negb (n =? 0)
  | StampStr s => truthy_string s
  end.

Record Review := { text : string; timestamp : Stamp }.

(** [l.slice(-n)]: the last [n] elements of [l] (all of [l] when it is
    shorter). *)
Definition slice_last {A} (n : nat) (l : list A) : list A :=
  drop (length l - n)%nat l.

(** The body of [GET /get-reviews]: [reviews.slice(-10).reverse()]. *)
Definition latest_reviews (rs : list Review) : list Review :=
  reverse (slice_last 10 rs).

(** [reviews.push(r); if (reviews.length > 100) reviews = reviews.slice(-100)]. *)
Definition push_review (rs : list Review) (r : Review) : list Review :=
  let rs' := rs ++ [r] in
  if (100 <? length rs')%nat then slice_last 100 rs' else rs'.

(** ** Presence set (identical in both variants) *)

(** [activePlayers.add(clientId)] *)
Definition presence_add (k : ClientId) (active : gset ClientId) : gset ClientId :=
  {[k]} ∪ active.

(** [activePlayers.delete(clientId)] *)
Definition presence_delete (k : ClientId) (active : gset ClientId) : gset ClientId :=
  active ∖ {[k]}.

(** [activePlayers.size] *)
Definition presence_size (active : gset ClientId) : Z := Z.of_nat (size active).

(** ** The middleware chain in front of the application

    [app.use(express.json())] and [app.use(express.static('public'))] are
    registered before the tracking middleware.  A request whose JSON body
    does not parse is answered by the body parser (status 400), and a
    request for a file that exists under [public/] is answered by the
    static file server; neither reaches the tracking middleware nor a
    route.  Every other request goes on to the tracking middleware and
    then to the handler of its route. *)
Inductive Dispatch (Route : Type) :=
  | BodyRejected
  | ServedStatic
  | Routed (r : Route).
Arguments BodyRejected {Route}.
Arguments ServedStatic {Route}.
Arguments Routed {Route} r.

(** ** Exceptions

    Code that can throw returns an [outcome]; [try_catch] is the
    [try { ... } catch (err) { ... }] statement. *)

Inductive outcome (A : Type) :=
  | Return (a : A)
  | Throw (err : string).
Arguments Return {A} a.
Arguments Throw {A} err.

#[global] Instance outcome_bind : MBind outcome := fun A B k c =>
  match c with
  | Return a => k a
  | Throw e => Throw e
  end.

Definition try_catch {A} (body : outcome A) (handler : string -> outcome A) : outcome A :=
  match body with
  | Return a => Return a
  | Throw e => handler e
  end.

(** What the start-up code sees of the file system and of [JSON.parse]:
    whether the store file exists, what reading it gives, and what
    parsing a text gives. *)
Record Disk (Doc : Type) := {
  existsSync : bool;
  readFileSync : outcome string;
  JSON_parse : string -> outcome Doc
}.
Arguments existsSync {Doc} d.
Arguments readFileSync {Doc} d.
Arguments JSON_parse {Doc} d s.

(** * The offline-data variant ([src/unnamed/part_000]) *)

Module OfflineVariant.

Definition POINTS_PER_SECOND_OFFLINE : Z := 1.

(** A stored offline record: an object whose [points] and [lastSeen]
    properties may be absent (a client may save a partial object). *)
Record OfflineRecord := { points : option Z; lastSeen : option Z }.

#[global] Instance OfflineRecord_eq_dec : EqDecision OfflineRecord.
Proof. solve_decision. Defined.

Inductive Route :=
  | GetRoot
  | GetPlayerCount
  | GetPlayerCountStream
  | PostSubmitReview (text : option string) (timestamp : option Stamp)
  | GetReviews
  | PostSaveOfflineData (playerId : option string) (data : option OfflineRecord)
  | PostGetOfflineData (playerId : option string)
  | GetMyOffline
  | Unrouted.

Record Request := {
  x_client_id : option string;
  x_forwarded_for : option string;
  ip : option string;
  remoteAddress : option string;
  dispatch : Dispatch Route
}.

(** The clock readings and the random key drawn while a request is served:
    [now] is read by the middleware, [handler_now] by [/my-offline], and
    [fresh] stands for [Date.now() + Math.random()]. *)
Record Env := { now : Z; handler_now : Z; fresh : Z }.

Inductive Body :=
  | Counts (current total : Z)
  | Success
  | Failure (error : string)
  | ReviewList (reviews : list Review)
  | OfflineData (data : OfflineRecord)
  | MyOffline (points lastSeen : option Z).

Inductive Response :=
  | SendFile (file : string)
  | EventStream (first : Body)
  | Json (status : Z) (body : Body)
  | NotFound
  | StaticFile
  | BadRequest.

(** [res.json(body)] answers with status 200. *)
Definition res_json (b : Body) : Response := Json 200 b.

Record State := {
  currentPlayers : Z;
  totalPlayers : Z;
  activePlayers : gset ClientId;
  reviews : list Review;
  offlineData : gmap ClientId OfflineRecord;
  (** the [close] callbacks registered by requests not yet closed, each
      with the [clientId] it captured *)
  closeListeners : list ClientId
}.

Definition init : State :=
  {| currentPlayers := 0; totalPlayers := 0; activePlayers := ∅;
     reviews := []; offlineData := ∅; closeListeners := [] |}.

Definition getClientIp (req : Request) : string :=
  if truthy_ostring (x_forwarded_for req)
  then trim (split_comma_head (default EmptyString (x_forwarded_for req)))
  else if truthy_ostring (ip req) then default EmptyString (ip req)
  else if truthy_ostring (remoteAddress req) then default EmptyString (remoteAddress req)
  else EmptyString.

Definition awardOfflinePoints (stored : OfflineRecord) (nowMs : Z) : OfflineRecord :=
  let elapsedMs := Z.max 0 (nowMs - or_else (lastSeen stored) nowMs) in
  let pts := (elapsedMs / 1000) * POINTS_PER_SECOND_OFFLINE in
  {| points := Some (or_else (points stored) 0 + pts); lastSeen := Some nowMs |}.

(** The accrual step shared by the middleware and [/my-offline]:
    look the key up, create or award, store. *)
Definition accrue (clientId : ClientId) (nowMs : Z)
    (m : gmap ClientId OfflineRecord) : OfflineRecord :=
  match m !! clientId with
  | None => {| points := Some 0; lastSeen := Some nowMs |}
  | Some stored => awardOfflinePoints stored nowMs
  end.

(** [req.headers['x-client-id'] || getClientIp(req) || Date.now() + Math.random()] *)
Definition middlewareClientId (req : Request) (env : Env) : ClientId :=
  if truthy_ostring (x_client_id req) then IdStr (default EmptyString (x_client_id req))
  else if truthy_string (getClientIp req) then IdStr (getClientIp req)
  else IdNum (fresh env).

(** The [app.use] middleware, up to its call of [next()]. *)
Definition middleware (s : State) (req : Request) (env : Env) : State :=
  let clientId := middlewareClientId req env in
  let stored := accrue clientId (now env) (offlineData s) in
  let offline' := <[clientId := stored]> (offlineData s) in
  let active' := presence_add clientId (activePlayers s) in
  let current' := presence_size active' in
  {| currentPlayers := current';
     totalPlayers := Z.max (totalPlayers s) current';
     activePlayers := active';
     reviews := reviews s;
     offlineData := offline';
     closeListeners := closeListeners s ++ [clientId] |}.

Definition set_offlineData (s : State) (m : gmap ClientId OfflineRecord) : State :=
  {| currentPlayers := currentPlayers s; totalPlayers := totalPlayers s;
     activePlayers := activePlayers s; reviews := reviews s;
     offlineData := m; closeListeners := closeListeners s |}.

Definition set_reviews (s : State) (rs : list Review) : State :=
  {| currentPlayers := currentPlayers s; totalPlayers := totalPlayers s;
     activePlayers := activePlayers s; reviews := rs;
     offlineData := offlineData s; closeListeners := closeListeners s |}.

Definition set_totalPlayers (s : State) (n : Z) : State :=
  {| currentPlayers := currentPlayers s; totalPlayers := n;
     activePlayers := activePlayers s; reviews := reviews s;
     offlineData := offlineData s; closeListeners := closeListeners s |}.

(** The route handlers. *)
Definition handler (s : State) (r : Route) (req : Request) (env : Env)
    : State * Response :=
  match r with
  | GetRoot =>
      (set_totalPlayers s (totalPlayers s + 1), SendFile "main.html")
  | GetPlayerCount =>
      (s, res_json (Counts (currentPlayers s) (totalPlayers s)))
  | GetPlayerCountStream =>
      (s, EventStream (Counts (currentPlayers s) (totalPlayers s)))
  | PostSubmitReview text timestamp =>
      match text, timestamp with
      | Some t, Some ts =>
          if truthy_string t && truthy_stamp ts
          then (set_reviews s (push_review (reviews s) {| text := t; timestamp := ts |}),
                res_json Success)
          else (s, res_json (Failure "Missing required fields"))
      | _, _ => (s, res_json (Failure "Missing required fields"))
      end
  | GetReviews =>
      (s, res_json (ReviewList (latest_reviews (reviews s))))
  | PostSaveOfflineData playerId data =>
      match playerId, data with
      | Some p, Some d =>
          if truthy_string p
          then (set_offlineData s (<[IdStr p := d]> (offlineData s)), res_json Success)
          else (s, res_json (Failure "Missing required fields"))
      | _, _ => (s, res_json (Failure "Missing required fields"))
      end
  | PostGetOfflineData playerId =>
      if truthy_ostring playerId then
        match offlineData s !! IdStr (default EmptyString playerId) with
        | Some d => (s, res_json (OfflineData d))
        | None => (s, res_json (Failure "No offline data found"))
        end
      else (s, res_json (Failure "Missing player ID"))
  | GetMyOffline =>
      let clientId :=
        if truthy_ostring (x_client_id req) then default EmptyString (x_client_id req)
        else getClientIp req in
      if truthy_string clientId then
        let stored := accrue (IdStr clientId) (handler_now env) (offlineData s) in
        (set_offlineData s (<[IdStr clientId := stored]> (offlineData s)),
         res_json (MyOffline (points stored) (lastSeen stored)))
      else (s, res_json (Failure "No client ID or IP found"))
  | Unrouted => (s, NotFound)
  end.

(** One request: the tracking middleware, then the handler of its route,
    unless the request was answered before reaching them. *)
Definition serve (s : State) (req : Request) (env : Env) : State * Response :=
  match dispatch req with
  | BodyRejected => (s, BadRequest)
  | ServedStatic => (s, StaticFile)
  | Routed r => handler (middleware s req env) r req env
  end.

(** The [close] callback of the listener at position [i]: it runs once and
    is then gone. *)
Definition on_close (s : State) (i : nat) : State :=
  match closeListeners s !! i with
  | Some clientId =>
      let active' := presence_delete clientId (activePlayers s) in
      {| currentPlayers := presence_size active';
         totalPlayers := totalPlayers s;
         activePlayers := active';
         reviews := reviews s;
         offlineData := offlineData s;
         closeListeners := delete i (closeListeners s) |}
  | None => s
  end.

Inductive Event :=
  | Incoming (req : Request) (env : Env)
  | Closed (i : nat).

Definition step (s : State) (e : Event) : State :=
  match e with
  | Incoming req env => fst (serve s req env)
  | Closed i => on_close s i
  end.

Definition run (s : State) (es : list Event) : State := foldl step s es.

(** *** Loading [offlineData.json] *)

(** A value found under a key of the parsed file. *)
Inductive RawValue :=
  | RawNull
  | RawObject (r : OfflineRecord).

(** What [JSON.parse] returned: [null], a number or boolean (no own
    properties), or an object. *)
Inductive RawDoc :=
  | DocNull
  | DocAtom
  | DocObject (entries : list (string * RawValue)).






(** The outcome of start-up: the map the server starts with and what
    [console.error] printed. *)
Record Loaded := {
  loaded_offlineData : gmap ClientId OfflineRecord;
  console_errors : list string
}.

(** The [if (fs.existsSync(OFFLINE_FILE)) { try { ... } catch (err) { ... } }]
    block; [nowMs] is the reading of [Date.now()] during the loop. *)


End OfflineVariant.

(** * The data-file variant ([src/server.js]) *)

Module DataVariant.

Record Data := { totalPlayers : Z; reviews : list Review }.

Inductive Route :=
  | GetRoot
  | GetPlayerCount
  | GetPlayerCountStream
  | PostSubmitReview (text : option string) (timestamp : option Stamp)
  | GetReviews
  | Unrouted.

Record Request := { x_client_id : option string; dispatch : Dispatch Route }.

(** [fresh] stands for [Date.now() + Math.random()]. *)
Record Env := { fresh : Z }.

Inductive Body :=
  | Counts (current total : Z)
  | Success
  | Failure (error : string)
  | ReviewList (reviews : list Review).

Inductive Response :=
  | SendFile (file : string)
  | EventStream (first : Body)
  | Json (status : Z) (body : Body)
  | NotFound
  | StaticFile
  | BadRequest.

Definition res_json (b : Body) : Response := Json 200 b.

Record State := {
  data : Data;
  currentPlayers : Z;
  activePlayers : gset ClientId;
  closeListeners : list ClientId
}.

Definition initial_data : Data := {| totalPlayers := 0; reviews := [] |}.

Definition init (d : Data) : State :=
  {| data := d; currentPlayers := 0; activePlayers := ∅; closeListeners := [] |}.

(** [req.headers['x-client-id'] || Date.now() + Math.random()] *)
Definition middlewareClientId (req : Request) (env : Env) : ClientId :=
  if truthy_ostring (x_client_id req) then IdStr (default EmptyString (x_client_id req))
  else IdNum (fresh env).

Definition middleware (s : State) (req : Request) (env : Env) : State :=
  let clientId := middlewareClientId req env in
  let active' := presence_add clientId (activePlayers s) in
  {| data := data s;
     currentPlayers := presence_size active';
     activePlayers := active';
     closeListeners := closeListeners s ++ [clientId] |}.

Definition set_data (s : State) (d : Data) : State :=
  {| data := d; currentPlayers := currentPlayers s;
     activePlayers := activePlayers s; closeListeners := closeListeners s |}.

(** The route handlers; [saveData()] only writes the file and leaves the
    in-memory state alone. *)
Definition handler (s : State) (r : Route) : State * Response :=
  match r with
  | GetRoot =>
      (set_data s {| totalPlayers := totalPlayers (data s) + 1;
                     reviews := reviews (data s) |},
       SendFile "main.html")
  | GetPlayerCount =>
      (s, res_json (Counts (currentPlayers s) (totalPlayers (data s))))
  | GetPlayerCountStream =>
      (s, EventStream (Counts (currentPlayers s) (totalPlayers (data s))))
  | PostSubmitReview text timestamp =>
      match text, timestamp with
      | Some t, Some ts =>
          if truthy_string t && truthy_stamp ts
          then (set_data s
                  {| totalPlayers := totalPlayers (data s);
                     reviews := push_review (reviews (data s))
                                  {| text := trim t; timestamp := ts |} |},
                res_json Success)
          else (s, res_json (Failure "Missing required fields"))
      | _, _ => (s, res_json (Failure "Missing required fields"))
      end
  | GetReviews =>
      (s, res_json (ReviewList (latest_reviews (reviews (data s)))))
  | Unrouted => (s, NotFound)
  end.

Definition serve (s : State) (req : Request) (env : Env) : State * Response :=
  match dispatch req with
  | BodyRejected => (s, BadRequest)
  | ServedStatic => (s, StaticFile)
  | Routed r => handler (middleware s req env) r
  end.

Definition on_close (s : State) (i : nat) : State :=
  match closeListeners s !! i with
  | Some clientId =>
      let active' := presence_delete clientId (activePlayers s) in
      {| data := data s;
         currentPlayers := presence_size active';
         activePlayers := active';
         closeListeners := delete i (closeListeners s) |}
  | None => s
  end.

Inductive Event :=
  | Incoming (req : Request) (env : Env)
  | Closed (i : nat).

Definition step (s : State) (e : Event) : State :=
  match e with
  | Incoming req env => fst (serve s req env)
  | Closed i => on_close s i
  end.

Definition run (s : State) (es : list Event) : State := foldl step s es.

(** *** Loading [data.json] *)

(** What [JSON.parse] returned: a value without own properties ([null], a
    number, a boolean) or an object that may carry [totalPlayers] and
    [reviews]. *)
Inductive RawDoc :=
  | DocAtom
  | DocObject (totalPlayers : option Z) (reviews : option (list Review)).

(** [{ ...data, ...loaded }] *)
Definition spread (d : Data) (loaded : RawDoc) : Data :=
  match loaded with
  | DocAtom => d
  | DocObject tp rs =>
      {| totalPlayers := default (totalPlayers d) tp;
         reviews := default (reviews d) rs |}
  end.

Record Loaded := { loaded_data : Data; console_errors : list string }.

Definition loadData (d : Disk RawDoc) : outcome Loaded :=
  if existsSync d then
    try_catch
      (text ← readFileSync d;
       loaded ← JSON_parse d text;
       Return {| loaded_data := spread initial_data loaded; console_errors := [] |})
      (fun err =>
         Return {| loaded_data := initial_data;
                   console_errors := ["Failed to read data.json, starting fresh: " +:+ err] |})
  else Return {| loaded_data := initial_data; console_errors := [] |}.

End DataVariant.

(** * Notions used in the statements *)

Module Notions.
Import OfflineVariant.




(** A request from a client identified by its [x-client-id] header. *)
Definition request_from (id : string) (r : Route) : Request :=
  {| x_client_id := Some id; x_forwarded_for := None; ip := None;
     remoteAddress := None; dispatch := Routed r |}.

(** A request without identification header, from network address [addr]. *)
Definition request_from_ip (addr : string) (d : Dispatch Route) : Request :=
  {| x_client_id := None; x_forwarded_for := None; ip := Some addr;
     remoteAddress := None; dispatch := d |}.

Definition at_time (t : Z) : Env := {| now := t; handler_now := t; fresh := 0 |}.

(** The request goes through the tracking middleware. *)
Definition reaches_middleware (e : Event) : bool :=
  match e with
  | Incoming req _ =>
      match dispatch req with
      | Routed _ => true
      | _ => false
      end
  | Closed _ => false
  end.

(** The request is handled by [app.get('/')]. *)
Definition is_root_load (e : Event) : bool :=
  match e with
  | Incoming req _ =>
      match dispatch req with
      | Routed GetRoot => true
      | _ => false
      end
  | Closed _ => false
  end.

Definition root_loads (es : list Event) : Z :=
  foldl (fun n e => n + (if is_root_load e then 1 else 0)) 0 es.

(** The largest [currentPlayers] seen along a run from the initial state. *)
Definition observe (acc : State * Z) (e : Event) : State * Z :=
  let s' := step (fst acc) e in
  (s', Z.max (snd acc) (currentPlayers s')).

Definition peak_players (es : list Event) : Z :=
  snd (foldl observe (init, currentPlayers init) es).

(** A review as a client submits it: both fields sent. *)
Definition submits (e : Event) (r : Review) : Prop :=
  exists req env,
    e = Incoming req env /\
    dispatch req = Routed (PostSubmitReview (Some (text r)) (Some (timestamp r))).




End Notions.

(** The guard of [/submit-review], [!text || !timestamp], negated. *)
Definition accepted (text : option string) (timestamp : option Stamp) : bool :=
  truthy_ostring text && from_option truthy_stamp false timestamp.



Module DataNotions.
Import DataVariant.

Definition request_from (id : string) (r : Route) : Request :=
  {| x_client_id := Some id; dispatch := Routed r |}.

Definition any_env : Env := {| fresh := 0 |}.

Definition is_root_load (e : Event) : bool :=
  match e with
  | Incoming req _ =>
      match dispatch req with
      | Routed GetRoot => true
      | _ => false
      end
  | Closed _ => false
  end.

Definition submits (e : Event) (r : Review) : Prop :=
  exists req env,
    e = Incoming req env /\
    dispatch req = Routed (PostSubmitReview (Some (text r)) (Some (timestamp r))).

End DataNotions.

(** * Further notions: string shape, accrual runs, persistence *)

(** The string starts with a code unit that [trim] strips. *)
Definition starts_blank (s : string) : bool :=
  match s with
  | EmptyString => false
  | String c _ => is_js_space c
  end.

(** The string ends with a code unit that [trim] strips. *)
Fixpoint ends_blank (s : string) : bool :=
  match s with
  | EmptyString => false
  | String c EmptyString => is_js_space c
  | String _ s' => ends_blank s'
  end.

(** The string holds a comma. *)
Fixpoint has_comma (s : string) : bool :=
  match s with
  | EmptyString => false
  | String c s' => (nat_of_ascii c =? 44)%nat || has_comma s'
  end.

Module MoreNotions.
Import OfflineVariant Notions.

(** The identifier [/my-offline] derives:
    [req.headers['x-client-id'] || getClientIp(req)]. *)
Definition my_offline_id (req : Request) : string :=
  if truthy_ostring (x_client_id req) then default EmptyString (x_client_id req)
  else getClientIp req.



(** The review an event appends to the log, if it is an accepted
    [/submit-review]. *)
Definition appended_review (e : Event) : option Review :=
  match e with
  | Incoming req _ =>
      match dispatch req with
      | Routed (PostSubmitReview (Some t) (Some ts)) =>
          if accepted (Some t) (Some ts)
          then Some {| text := t; timestamp := ts |} else None
      | _ => None
      end
  | Closed _ => None
  end.

(** No request starts while another request of the same key is still
    open: after every event of the run the open requests have pairwise
    different keys. *)
Fixpoint overlap_free (s : State) (es : list Event) : bool :=
  match es with
  | [] => true
  | e :: es' =>
      bool_decide (NoDup (closeListeners (step s e))) && overlap_free (step s e) es'
  end.


End MoreNotions.

Module MoreDataNotions.
Import DataVariant DataNotions.

(** The number of requests of a run handled by [app.get('/')]. *)
Definition root_loads (es : list Event) : Z :=
  foldl (fun n e => n + (if is_root_load e then 1 else 0)) 0 es.

Fixpoint overlap_free (s : State) (es : list Event) : bool :=
  match es with
  | [] => true
  | e :: es' =>
      bool_decide (NoDup (closeListeners (step s e))) && overlap_free (step s e) es'
  end.

Definition appended_review (e : Event) : option Review :=
  match e with
  | Incoming req _ =>
      match dispatch req with
      | Routed (PostSubmitReview (Some t) (Some ts)) =>
          if accepted (Some t) (Some ts)
          then Some {| text := trim t; timestamp := ts |} else None
      | _ => None
      end
  | Closed _ => None
  end.

End MoreDataNotions.

(** ** Writing the store file

    [fs.writeFileSync] either replaces the content of the file by the
    text, or throws and leaves the file with whatever it then holds. *)
Inductive WriteResult :=
  | Written
  | WriteFailed (err : string) (remains : option string).

(** The store file (its content, if it exists) and what [console.error]
    has printed. *)
Record FileState := { file : option string; console : list string }.

(** What a later start-up sees of a store file: it exists when it has a
    content, and reading it gives that content. *)
Definition disk_of {Doc} (f : FileState) (parse : string -> outcome Doc) : Disk Doc :=
  {| existsSync := bool_decide (is_Some (file f));
     readFileSync := match file f with
                     | Some content => Return content
                     | None => Throw "ENOENT: no such file or directory"
                     end;
     JSON_parse := parse |}.

Module DataPersistence.
Import DataVariant DataNotions.

(** [saveData()]: [JSON.stringify(data, null, 2)] is written to
    [data.json]; a failure is logged and swallowed. *)
Definition saveData (JSON_stringify : Data -> string) (w : WriteResult)
    (d : Data) (f : FileState) : FileState :=
  match w with
  | Written => {| file := Some (JSON_stringify d); console := console f |}
  | WriteFailed err remains =>
      {| file := remains; console := console f ++ ["Failed to save data: " +:+ err] |}
  end.

(** The handlers that call [saveData()]: [GET /] always, [/submit-review]
    when it accepts the review. *)
Definition saves (req : Request) : bool :=
  match dispatch req with
  | Routed GetRoot => true
  | Routed (PostSubmitReview t ts) => accepted t ts
  | _ => false
  end.

(** One request with its effect on the file: the handler changes [data],
    then saves it. *)
Definition serve_saving (JSON_stringify : Data -> string)
    (s : State) (f : FileState) (req : Request) (env : Env) (w : WriteResult)
    : State * FileState * Response :=
  let out := serve s req env in
  (fst out,
   if saves req then saveData JSON_stringify w (data (fst out)) f else f,
   snd out).

Inductive DiskEvent :=
  | Serving (req : Request) (env : Env) (w : WriteResult)
  | Closing (i : nat).

Definition step_saving (JSON_stringify : Data -> string)
    (sf : State * FileState) (e : DiskEvent) : State * FileState :=
  match e with
  | Serving req env w => fst (serve_saving JSON_stringify (fst sf) (snd sf) req env w)
  | Closing i => (on_close (fst sf) i, snd sf)
  end.

Definition run_saving (JSON_stringify : Data -> string)
    (sf : State * FileState) (es : list DiskEvent) : State * FileState :=
  foldl (step_saving JSON_stringify) sf es.

(** Every write of the run succeeded. *)
Definition all_written (es : list DiskEvent) : Prop :=
  Forall (fun e => match e with
                   | Serving _ _ (WriteFailed _ _) => False
                   | _ => True
                   end) es.

(** The document [JSON.parse] gives back for a saved [data]. *)
Definition doc_of (d : Data) : RawDoc :=
  DocObject (Some (totalPlayers d)) (Some (reviews d)).

End DataPersistence.

Module OfflinePersistence.
Import OfflineVariant.





(** The document [JSON.parse] gives back for a serialised snapshot. *)
Definition doc_of (o : gmap string OfflineRecord) : RawDoc :=
  DocObject ((fun kv => (fst kv, RawObject (snd kv))) <$> map_to_list o).

End OfflinePersistence.

(** * Offline-points accrual *)

Section Accrual.
Import OfflineVariant Notions.




Lemma lastSeen_award (r : OfflineRecord) (nowMs : Z) :
  lastSeen (awardOfflinePoints r nowMs) = Some nowMs.
Proof. reflexivity. Qed.



Lemma middleware_offlineData (s : State) (req : Request) (env : Env) :
  offlineData (middleware s req env)
  = <[middlewareClientId req env :=
        accrue (middlewareClientId req env) (now env) (offlineData s)]>
      (offlineData s).
Proof. reflexivity. Qed.

(** C1, as amended.  For a key without a record, the first accrual call
    (tracking middleware) at time [t0] stores [{points: 0, lastSeen: t0}];
    provided [t0] is not 0 and [0 <= delta], the next accrual call for the
    same key at [t0 + delta] stores
    [{points: floor(delta/1000) * rate, lastSeen: t0 + delta}]. *)
Theorem first_then_second_accrual
    (s : State) (req : Request) (e0 e1 : Env) (t0 delta : Z) :
  let k := middlewareClientId req e0 in
  let s1 := middleware s req e0 in
  let s2 := middleware s1 req e1 in
  offlineData s !! k = None ->
  middlewareClientId req e1 = k ->
  now e0 = t0 -> now e1 = t0 + delta ->
  t0 <> 0 -> 0 <= delta ->
  offlineData s1 !! k = Some {| points := Some 0; lastSeen := Some t0 |} /\
  offlineData s2 !! k
  = Some {| points := Some (delta / 1000 * POINTS_PER_SECOND_OFFLINE);
            lastSeen := Some (t0 + delta) |}.
Proof.
  intros k s1 s2 Hnone Hk Ht0 Ht1 Hnz Hd.
  assert (H1 : offlineData s1 !! k
               = Some {| points := Some 0; lastSeen := Some t0 |}).
  { subst s1 k. rewrite middleware_offlineData, lookup_insert_eq.
    unfold accrue. rewrite Hnone, Ht0. reflexivity. }
  split; [exact H1|].
  subst s2. rewrite middleware_offlineData, Hk, lookup_insert_eq.
  unfold accrue. rewrite H1, Ht1.
  unfold awardOfflinePoints. simpl.
  destruct (Z.eqb_spec t0 0); [contradiction|].
  replace (t0 + delta - t0) with delta by lia.
  rewrite Z.max_r by assumption. reflexivity.
Qed.

Lemma first_then_second_accrual_witness :
  let req := request_from_ip "203.0.113.5" (Routed GetPlayerCount) in
  offlineData (middleware init req (at_time 1000)) !! IdStr "203.0.113.5"
  = Some {| points := Some 0; lastSeen := Some 1000 |} /\
  offlineData (middleware (middleware init req (at_time 1000)) req (at_time 4500))
    !! IdStr "203.0.113.5"
  = Some {| points := Some (3500 / 1000 * POINTS_PER_SECOND_OFFLINE);
            lastSeen := Some (1000 + 3500) |}.
Proof.
  apply (first_then_second_accrual init
           (request_from_ip "203.0.113.5" (Routed GetPlayerCount))
           (at_time 1000) (at_time 4500) 1000 3500);
    first [reflexivity | lia].
Defined.

(** C1, as stated, fails on the specification's own example: with the
    first request at [t = 0], the second request at [t = 3500] finds
    [lastSeen = 0], which [stored.lastSeen || nowMs] replaces by [nowMs];
    no point is credited. *)
Lemma first_accrual_at_epoch_credits_nothing :
  let req := request_from_ip "203.0.113.5" (Routed GetPlayerCount) in
  let s1 := middleware init req (at_time 0) in
  let s2 := middleware s1 req (at_time 3500) in
  offlineData s1 !! IdStr "203.0.113.5"
  = Some {| points := Some 0; lastSeen := Some 0 |} /\
  offlineData s2 !! IdStr "203.0.113.5"
  = Some {| points := Some 0; lastSeen := Some 3500 |} /\
  offlineData s2 !! IdStr "203.0.113.5"
  <> Some {| points := Some (3500 / 1000 * POINTS_PER_SECOND_OFFLINE);
             lastSeen := Some 3500 |}.
Proof. vm_compute. repeat split; congruence. Qed.











End Accrual.

(** * Presence and player counters *)

Section Presence.
Import OfflineVariant Notions.

Lemma run_snoc (s : State) (es : list Event) (e : Event) :
  run s (es ++ [e]) = step (run s es) e.
Proof. unfold run. apply foldl_snoc. Qed.

Lemma presence_delete_size (k : ClientId) (active : gset ClientId) :
  presence_size (presence_delete k active) <= presence_size active.
Proof.
  unfold presence_size, presence_delete.
  apply Nat2Z.inj_le, subseteq_size.
  intros x Hx. apply elem_of_difference in Hx. tauto.
Qed.

(** Along every run the counter mirrors the size of the set. *)
Lemma currentPlayers_is_size (es : list Event) :
  currentPlayers (run init es) = presence_size (activePlayers (run init es)).
Proof.
  induction es as [|e es IH] using rev_ind; [reflexivity|].
  rewrite run_snoc. destruct e as [req env | i]; simpl.
  - unfold serve. destruct (dispatch req) as [| | rt]; simpl; try exact IH.
    destruct rt as [| | | t ts | | p d | p | |]; simpl; try reflexivity.
    + destruct t, ts; simpl; try reflexivity.
      destruct (_ && _); reflexivity.
    + destruct p, d; simpl; try reflexivity.
      destruct (truthy_string _); reflexivity.
    + destruct (truthy_ostring p); simpl; [|reflexivity].
      destruct (_ !! _); reflexivity.
    + destruct (truthy_string _); reflexivity.
  - unfold on_close. destruct (_ !! i); simpl; [reflexivity | exact IH].
Qed.

(** A key in the presence set always has an open request; the converse is
    what fails (see [presence_lost_on_first_close]). *)
Lemma active_has_open_request (es : list Event) (k : ClientId) :
  k ∈ activePlayers (run init es) -> k ∈ closeListeners (run init es).
Proof.
  induction es as [|e es IH] using rev_ind; [set_solver|].
  rewrite run_snoc. generalize dependent (run init es). intros s IH.
  destruct e as [req env | i]; simpl.
  - unfold serve. destruct (dispatch req) as [| | rt]; simpl; try exact IH.
    assert (Hmw : k ∈ activePlayers (middleware s req env) ->
                  k ∈ closeListeners (middleware s req env)).
    { simpl. unfold presence_add. rewrite elem_of_app, elem_of_union.
      intros [Hk | Hk]; [right; set_solver | left; auto]. }
    destruct rt as [| | | t ts | | p d | p | |]; simpl in *; try exact Hmw.
    + destruct t, ts; simpl; try exact Hmw.
      destruct (_ && _); exact Hmw.
    + destruct p, d; simpl; try exact Hmw.
      destruct (truthy_string _); exact Hmw.
    + destruct (truthy_ostring p); simpl; [|exact Hmw].
      destruct (_ !! _); exact Hmw.
    + destruct (truthy_string _); exact Hmw.
  - unfold on_close. destruct (closeListeners s !! i) as [k0|] eqn:Hi; simpl;
      [|exact IH].
    unfold presence_delete. rewrite elem_of_difference, not_elem_of_singleton.
    intros [Hk Hne]. specialize (IH Hk).
    apply list_elem_of_lookup in IH as [j Hj].
    apply list_elem_of_lookup.
    destruct (decide (j < i)%nat).
    + exists j. rewrite list_lookup_delete_lt by assumption. exact Hj.
    + assert (j <> i) by congruence.
      exists (Nat.pred j). rewrite list_lookup_delete_ge by lia.
      replace (S (Nat.pred j)) with j by lia. exact Hj.
Qed.

(** C2, on the failing input.  Two requests carrying the same
    [x-client-id] are open (the event stream and a poll); when the poll
    closes, its callback deletes the key although the stream is still
    open: the key has an open request but is not in the presence set, and
    [currentPlayers] is 0 while one key is connected.  Both variants
    behave alike. *)
Theorem presence_lost_on_first_close :
  (let s := run init
              [Incoming (request_from "kitten" GetPlayerCountStream) (at_time 1);
               Incoming (request_from "kitten" GetPlayerCount) (at_time 2);
               Closed 1] in
   (closeListeners s = [IdStr "kitten"]) /\
   (IdStr "kitten" ∉ activePlayers s) /\
   (currentPlayers s = 0)) /\
  (let s := DataVariant.run (DataVariant.init DataVariant.initial_data)
              [DataVariant.Incoming
                 (DataNotions.request_from "kitten" DataVariant.GetPlayerCountStream)
                 DataNotions.any_env;
               DataVariant.Incoming
                 (DataNotions.request_from "kitten" DataVariant.GetPlayerCount)
                 DataNotions.any_env;
               DataVariant.Closed 1] in
   (DataVariant.closeListeners s = [IdStr "kitten"]) /\
   (IdStr "kitten" ∉ DataVariant.activePlayers s) /\
   (DataVariant.currentPlayers s = 0)).
Proof.
  split; (split; [reflexivity|]); (split; [|vm_compute; reflexivity]);
    simpl; unfold presence_delete, presence_add;
    intros Hin; apply elem_of_difference in Hin as [_ Hin];
    apply Hin, elem_of_singleton; reflexivity.
Qed.

Lemma root_loads_snoc (es : list Event) (e : Event) :
  root_loads (es ++ [e]) = root_loads es + (if is_root_load e then 1 else 0).
Proof. unfold root_loads. rewrite foldl_snoc. reflexivity. Qed.

Lemma observe_fst (es : list Event) :
  fst (foldl observe (init, currentPlayers init) es) = run init es.
Proof.
  induction es as [|e es IH] using rev_ind; [reflexivity|].
  rewrite foldl_snoc, run_snoc. unfold observe at 1.
  cbv beta zeta. rewrite IH. reflexivity.
Qed.

Lemma peak_players_snoc (es : list Event) (e : Event) :
  peak_players (es ++ [e])
  = Z.max (peak_players es) (currentPlayers (run init (es ++ [e]))).
Proof.
  unfold peak_players. rewrite foldl_snoc, run_snoc. unfold observe at 1.
  cbv beta zeta. rewrite observe_fst. reflexivity.
Qed.

Lemma currentPlayers_le_peak (es : list Event) :
  currentPlayers (run init es) <= peak_players es.
Proof.
  destruct es as [|e es _] using rev_ind; [reflexivity|].
  rewrite peak_players_snoc. lia.
Qed.

Lemma handler_currentPlayers (s : State) (rt : Route) (req : Request) (env : Env) :
  currentPlayers (fst (handler s rt req env)) = currentPlayers s.
Proof.
  destruct rt as [| | | t ts | | p d | p | |]; simpl; try reflexivity.
  - destruct t, ts; simpl; try reflexivity. destruct (_ && _); reflexivity.
  - destruct p, d; simpl; try reflexivity. destruct (truthy_string _); reflexivity.
  - destruct (truthy_ostring p); simpl; [|reflexivity].
    destruct (_ !! _); reflexivity.
  - destruct (truthy_string _); reflexivity.
Qed.

Lemma handler_totalPlayers (s : State) (rt : Route) (req : Request) (env : Env) :
  totalPlayers (fst (handler s rt req env))
  = totalPlayers s + (match rt with GetRoot => 1 | _ => 0 end).
Proof.
  destruct rt as [| | | t ts | | p d | p | |]; simpl; try lia.
  - destruct t, ts; simpl; try lia. destruct (_ && _); simpl; lia.
  - destruct p, d; simpl; try lia. destruct (truthy_string _); simpl; lia.
  - destruct (truthy_ostring p); simpl; [|lia].
    destruct (_ !! _); simpl; lia.
  - destruct (truthy_string _); simpl; lia.
Qed.

Lemma step_totalPlayers (s : State) (e : Event) :
  totalPlayers (step s e)
  = (if reaches_middleware e
     then Z.max (totalPlayers s) (currentPlayers (step s e))
     else totalPlayers s)
    + (if is_root_load e then 1 else 0).
Proof.
  destruct e as [req env | i]; simpl.
  - unfold serve. destruct (dispatch req) as [| | rt]; simpl; try lia.
    rewrite handler_totalPlayers, handler_currentPlayers. simpl.
    destruct rt; reflexivity.
  - unfold on_close. destruct (_ !! i); simpl; lia.
Qed.

Lemma data_step_totalPlayers (s : DataVariant.State) (e : DataVariant.Event) :
  DataVariant.totalPlayers (DataVariant.data (DataVariant.step s e))
  = DataVariant.totalPlayers (DataVariant.data s)
    + (if DataNotions.is_root_load e then 1 else 0).
Proof.
  destruct e as [req env | i]; simpl.
  - unfold DataVariant.serve.
    destruct (DataVariant.dispatch req) as [| | rt]; simpl; try lia.
    destruct rt as [| | | t ts | |]; simpl; try lia.
    destruct t, ts; simpl; try lia. destruct (_ && _); simpl; lia.
  - unfold DataVariant.on_close. destruct (_ !! i); simpl; lia.
Qed.

(** C9, as amended.  In both variants no event lowers [totalPlayers].  In
    [src/server.js] an event changes it exactly when it is a root-page
    load, by one.  In the offline-data variant a request passing the
    middleware first raises it to [max(totalPlayers, currentPlayers)] and
    a root-page load then adds one; so along a run it is at least the
    largest [currentPlayers] seen and exceeds it by at most the number of
    root-page loads. *)
Theorem totalPlayers_never_decreases :
  (forall (s : DataVariant.State) (e : DataVariant.Event),
      DataVariant.totalPlayers (DataVariant.data (DataVariant.step s e))
      = DataVariant.totalPlayers (DataVariant.data s)
        + (if DataNotions.is_root_load e then 1 else 0)) /\
  (forall (s : DataVariant.State) (e : DataVariant.Event),
      DataVariant.totalPlayers (DataVariant.data s)
      <= DataVariant.totalPlayers (DataVariant.data (DataVariant.step s e))) /\
  (forall (s : State) (e : Event),
      totalPlayers (step s e)
      = (if reaches_middleware e
         then Z.max (totalPlayers s) (currentPlayers (step s e))
         else totalPlayers s)
        + (if is_root_load e then 1 else 0)) /\
  (forall (s : State) (e : Event), totalPlayers s <= totalPlayers (step s e)) /\
  (forall es : list Event,
      peak_players es <= totalPlayers (run init es) /\
      totalPlayers (run init es) <= peak_players es + root_loads es).
Proof.
  split; [exact data_step_totalPlayers|].
  split.
  { intros s e. rewrite data_step_totalPlayers.
    destruct (DataNotions.is_root_load e); lia. }
  split; [exact step_totalPlayers|].
  split.
  { intros s e. rewrite step_totalPlayers.
    destruct (reaches_middleware e), (is_root_load e); lia. }
  induction es as [|e es [IHlo IHhi]] using rev_ind.
  { split; reflexivity. }
  rewrite peak_players_snoc, root_loads_snoc.
  pose proof (currentPlayers_le_peak es) as Hcur.
  rewrite run_snoc in *. rewrite step_totalPlayers.
  assert (Hroot : 0 <= (if is_root_load e then 1 else 0))
    by (destruct (is_root_load e); lia).
  destruct (reaches_middleware e) eqn:Hr.
  - split; lia.
  - assert (Hc : currentPlayers (step (run init es) e) <= currentPlayers (run init es)).
    { destruct e as [req env | i]; simpl in *.
      - unfold serve. destruct (dispatch req); simpl; [lia | lia | discriminate].
      - pose proof (currentPlayers_is_size es) as Hsz.
        unfold on_close. destruct (_ !! i); simpl; [|lia].
        rewrite Hsz. apply presence_delete_size. }
    split; lia.
Qed.

(** C9, as stated, fails in the offline-data variant: one root-page load
    from the initial state leaves [totalPlayers = 2] although at most one
    player was ever connected. *)
Lemma totalPlayers_exceeds_peak :
  let es := [Incoming (request_from "kitten" GetRoot) (at_time 1)] in
  totalPlayers (run init es) = 2 /\
  peak_players es = 1 /\
  totalPlayers (run init es) <> peak_players es.
Proof. vm_compute. repeat split; congruence. Qed.

End Presence.

(** * The review log *)

Section ReviewLists.
Context {A : Type}.
Implicit Types (l k : list A) (n i : nat).


Lemma slice_last_all n l : (length l <= n)%nat -> slice_last n l = l.
Proof.
  intros H. unfold slice_last.
  replace (length l - n)%nat with 0%nat by lia. reflexivity.
Qed.


Lemma slice_last_snoc n l x :
  (0 < n)%nat -> last (slice_last n (l ++ [x])) = Some x.
Proof.
  intros Hn. unfold slice_last. rewrite length_app. simpl.
  rewrite drop_app_le by lia. apply last_snoc.
Qed.


End ReviewLists.

Section Reviews.

Lemma push_review_slice (rs : list Review) (r : Review) :
  push_review rs r = slice_last 100 (rs ++ [r]).
Proof.
  unfold push_review. destruct (Nat.ltb_spec 100 (length (rs ++ [r]))).
  - reflexivity.
  - symmetry. apply slice_last_all. assumption.
Qed.


Lemma push_review_last (rs : list Review) (r : Review) :
  last (push_review rs r) = Some r.
Proof. rewrite push_review_slice. apply slice_last_snoc. lia. Qed.




End Reviews.

Section OfflineReviews.
Import OfflineVariant Notions.

Lemma serve_submit_accepted (s : State) (req : Request) (env : Env)
    (t : string) (ts : Stamp) :
  dispatch req = Routed (PostSubmitReview (Some t) (Some ts)) ->
  accepted (Some t) (Some ts) = true ->
  serve s req env
  = (set_reviews (middleware s req env)
       (push_review (reviews s) {| text := t; timestamp := ts |}),
     res_json Success).
Proof.
  intros Hd Hacc. unfold serve. rewrite Hd. simpl.
  unfold accepted in Hacc. simpl in Hacc. rewrite Hacc. reflexivity.
Qed.





End OfflineReviews.

Section DataReviews.
Import DataVariant DataNotions.

Lemma data_serve_submit_accepted (s : State) (req : Request) (env : Env)
    (t : string) (ts : Stamp) :
  dispatch req = Routed (PostSubmitReview (Some t) (Some ts)) ->
  accepted (Some t) (Some ts) = true ->
  serve s req env
  = (set_data (middleware s req env)
       {| totalPlayers := totalPlayers (data s);
          reviews := push_review (reviews (data s))
                       {| text := trim t; timestamp := ts |} |},
     res_json Success).
Proof.
  intros Hd Hacc. unfold serve. rewrite Hd. simpl.
  unfold accepted in Hacc. simpl in Hacc. rewrite Hacc. reflexivity.
Qed.





End DataReviews.

Section ReviewClaims.
Import OfflineVariant Notions.






End ReviewClaims.

(** * Saving and reading back offline data *)

Section SaveAndGet.
Import OfflineVariant Notions.




End SaveAndGet.

(** * Loading the store file at start-up *)

Section Loading.
Import OfflineVariant.






End Loading.

(** * Client identification *)

Section Strings.

Lemma trim_start_not_blank (s : string) : starts_blank (trim_start s) = false.
Proof.
  induction s as [|c s IH]; [reflexivity|]. simpl.
  destruct (is_js_space c) eqn:Hc; [exact IH | simpl; exact Hc].
Qed.

Lemma trim_start_fixed (s : string) : starts_blank s = false -> trim_start s = s.
Proof. destruct s as [|c s]; [reflexivity|]. simpl. intros ->. reflexivity. Qed.

Lemma trim_end_not_blank (s : string) : ends_blank (trim_end s) = false.
Proof.
  induction s as [|c s IH]; [reflexivity|]. simpl.
  destruct (trim_end s) as [|d r].
  - destruct (is_js_space c) eqn:Hc; [reflexivity | simpl; exact Hc].
  - exact IH.
Qed.

Lemma trim_end_fixed (s : string) : ends_blank s = false -> trim_end s = s.
Proof.
  induction s as [|c s IH]; [reflexivity|]. intros H.
  destruct s as [|d s'].
  - simpl in *. rewrite H. reflexivity.
  - change (ends_blank (String d s') = false) in H.
    change (trim_end (String c (String d s')))
      with (match trim_end (String d s') with
            | EmptyString =>
                if is_js_space c then EmptyString else String c EmptyString
            | rest => String c rest
            end).
    rewrite (IH H). reflexivity.
Qed.

Lemma trim_end_keeps_start (s : string) :
  starts_blank s = false -> starts_blank (trim_end s) = false.
Proof.
  destruct s as [|c s]; [reflexivity|]. simpl. intros Hc.
  destruct (trim_end s); [rewrite Hc|]; simpl; exact Hc.
Qed.

Lemma trim_not_blank (s : string) :
  starts_blank (trim s) = false /\ ends_blank (trim s) = false.
Proof.
  unfold trim. split.
  - apply trim_end_keeps_start, trim_start_not_blank.
  - apply trim_end_not_blank.
Qed.

Lemma trim_fixed (s : string) :
  starts_blank s = false -> ends_blank s = false -> trim s = s.
Proof.
  intros Hs He. unfold trim. rewrite (trim_start_fixed s Hs).
  apply trim_end_fixed, He.
Qed.

Lemma trim_idempotent (s : string) : trim (trim s) = trim s.
Proof. destruct (trim_not_blank s). apply trim_fixed; assumption. Qed.

Lemma split_comma_head_no_comma (s : string) :
  has_comma (split_comma_head s) = false.
Proof.
  induction s as [|c s IH]; [reflexivity|]. simpl.
  destruct (nat_of_ascii c =? 44)%nat eqn:Hc; [reflexivity|].
  simpl. rewrite Hc. exact IH.
Qed.

Lemma trim_start_no_comma (s : string) :
  has_comma s = false -> has_comma (trim_start s) = false.
Proof.
  induction s as [|c s IH]; [reflexivity|]. simpl. intros H.
  apply orb_false_iff in H as [Hc Hs].
  destruct (is_js_space c); [exact (IH Hs)|]. simpl. rewrite Hc. exact Hs.
Qed.

Lemma trim_end_no_comma (s : string) :
  has_comma s = false -> has_comma (trim_end s) = false.
Proof.
  induction s as [|c s IH]; [reflexivity|]. simpl. intros H.
  apply orb_false_iff in H as [Hc Hs]. specialize (IH Hs).
  destruct (trim_end s) as [|d r].
  - destruct (is_js_space c); [reflexivity|]. simpl. rewrite Hc. reflexivity.
  - change (has_comma (String c (String d r)))
      with ((nat_of_ascii c =? 44)%nat || has_comma (String d r)).
    rewrite Hc, IH. reflexivity.
Qed.

Lemma trim_no_comma (s : string) : has_comma s = false -> has_comma (trim s) = false.
Proof. intros H. apply trim_end_no_comma, trim_start_no_comma, H. Qed.

End Strings.

Section ClientKeys.
Import OfflineVariant Notions MoreNotions.

(** X1.  When the request carries a non-empty [X-Forwarded-For] header,
    [getClientIp] answers from that header alone, whatever [req.ip] and
    the socket address are, and what it returns holds no comma and neither
    starts nor ends with white space. *)
Theorem getClientIp_forwarded_is_clean (req : Request) :
  truthy_ostring (x_forwarded_for req) = true ->
  has_comma (getClientIp req) = false /\
  starts_blank (getClientIp req) = false /\
  ends_blank (getClientIp req) = false /\
  forall (ip' ra' : option string) (d' : Dispatch Route),
    getClientIp {| x_client_id := x_client_id req;
                   x_forwarded_for := x_forwarded_for req;
                   ip := ip'; remoteAddress := ra'; dispatch := d' |}
    = getClientIp req.
Proof.
  intros Hf. unfold getClientIp. simpl. rewrite Hf.
  destruct (trim_not_blank (split_comma_head (default EmptyString (x_forwarded_for req))))
    as [Hs He].
  repeat split; try assumption.
  apply trim_no_comma, split_comma_head_no_comma.
Qed.

Lemma getClientIp_forwarded_is_clean_witness :
  let req := {| x_client_id := None;
                x_forwarded_for := Some "  203.0.113.5 , 10.0.0.1";
                ip := Some "10.0.0.1"; remoteAddress := None;
                dispatch := Routed GetMyOffline |} in
  getClientIp req = "203.0.113.5" /\
  has_comma (getClientIp req) = false /\
  starts_blank (getClientIp req) = false /\
  ends_blank (getClientIp req) = false.
Proof.
  split; [reflexivity|].
  destruct (getClientIp_forwarded_is_clean
              {| x_client_id := None;
                 x_forwarded_for := Some "  203.0.113.5 , 10.0.0.1";
                 ip := Some "10.0.0.1"; remoteAddress := None;
                 dispatch := Routed GetMyOffline |} eq_refl)
    as (Hc & Hs & He & _).
  repeat split; assumption.
Defined.

Lemma truthy_ostring_nonempty (o : option string) :
  truthy_ostring o = true -> default EmptyString o <> EmptyString.
Proof. destruct o as [[|c s]|]; simpl; congruence. Qed.

Lemma truthy_string_nonempty (s : string) :
  truthy_string s = true -> s <> EmptyString.
Proof. destruct s; simpl; congruence. Qed.

Lemma middlewareClientId_nonempty (req : Request) (env : Env) :
  middlewareClientId req env <> IdStr EmptyString.
Proof.
  unfold middlewareClientId.
  destruct (truthy_ostring (x_client_id req)) eqn:Hh.
  - intros [= H]. exact (truthy_ostring_nonempty _ Hh H).
  - destruct (truthy_string (getClientIp req)) eqn:Hi; [|discriminate].
    intros [= H]. exact (truthy_string_nonempty _ Hi H).
Qed.

Lemma middlewareClientId_my_offline (req : Request) (env : Env) :
  middlewareClientId req env
  = if truthy_string (my_offline_id req) then IdStr (my_offline_id req)
    else IdNum (fresh env).
Proof.
  unfold middlewareClientId, my_offline_id.
  destruct (truthy_ostring (x_client_id req)) eqn:Hh.
  - destruct (x_client_id req) as [h|]; [|discriminate]. simpl in *.
    rewrite Hh. reflexivity.
  - destruct (truthy_string (getClientIp req)); reflexivity.
Qed.

(** What a route handler does to the offline map. *)
Lemma handler_offlineData (s : State) (rt : Route) (req : Request) (env : Env) :
  offlineData (fst (handler s rt req env))
  = match rt with
    | PostSaveOfflineData (Some p) (Some d) =>
        if truthy_string p then <[IdStr p := d]> (offlineData s) else offlineData s
    | GetMyOffline =>
        if truthy_string (my_offline_id req)
        then <[IdStr (my_offline_id req) :=
                 accrue (IdStr (my_offline_id req)) (handler_now env) (offlineData s)]>
               (offlineData s)
        else offlineData s
    | _ => offlineData s
    end.
Proof.
  destruct rt as [| | | t ts | | p d | p | |]; simpl; try reflexivity.
  - destruct t, ts; simpl; try reflexivity. destruct (_ && _); reflexivity.
  - destruct p, d; simpl; try reflexivity. destruct (truthy_string _); reflexivity.
  - destruct (truthy_ostring p); simpl; [|reflexivity].
    destruct (_ !! _); reflexivity.
  - fold (my_offline_id req). destruct (truthy_string _); reflexivity.
Qed.

Lemma handler_presence (s : State) (rt : Route) (req : Request) (env : Env) :
  activePlayers (fst (handler s rt req env)) = activePlayers s /\
  closeListeners (fst (handler s rt req env)) = closeListeners s.
Proof.
  destruct rt as [| | | t ts | | p d | p | |]; simpl; try (split; reflexivity).
  - destruct t, ts; simpl; try (split; reflexivity).
    destruct (_ && _); split; reflexivity.
  - destruct p, d; simpl; try (split; reflexivity).
    destruct (truthy_string _); split; reflexivity.
  - destruct (truthy_ostring p); simpl; [|split; reflexivity].
    destruct (_ !! _); split; reflexivity.
  - destruct (truthy_string _); split; reflexivity.
Qed.

(** A step keeps every key of the offline map, and a key it adds is never
    the empty string. *)
Lemma step_offline_keys (s : State) (e : Event) (k : ClientId) :
  (is_Some (offlineData s !! k) -> is_Some (offlineData (step s e) !! k)) /\
  (is_Some (offlineData (step s e) !! k) ->
   is_Some (offlineData s !! k) \/ k <> IdStr EmptyString).
Proof.
  destruct e as [req env | i]; simpl.
  - unfold serve. destruct (dispatch req) as [| | rt]; simpl; [tauto | tauto |].
    rewrite handler_offlineData, middleware_offlineData.
    pose proof (middlewareClientId_nonempty req env) as Hmw.
    set (m1 := <[middlewareClientId req env := _]> (offlineData s)).
    assert (H1 : (is_Some (offlineData s !! k) -> is_Some (m1 !! k)) /\
                 (is_Some (m1 !! k) ->
                  is_Some (offlineData s !! k) \/ k <> IdStr EmptyString)).
    { subst m1. rewrite lookup_insert_is_Some'. split; [tauto|].
      intros [<- | H]; [right; exact Hmw | left; exact H]. }
    destruct rt as [| | | t ts | | [p|] [d|] | p | |]; try exact H1.
    + destruct (truthy_string p) eqn:Hp; [|exact H1].
      rewrite lookup_insert_is_Some'. split; [tauto|].
      intros [<- | H]; [|tauto].
      right. intros [= Hk]. exact (truthy_string_nonempty _ Hp Hk).
    + destruct (truthy_string (my_offline_id req)) eqn:Hc; [|exact H1].
      rewrite lookup_insert_is_Some'. split; [tauto|].
      intros [<- | H]; [|tauto].
      right. intros [= Hk]. exact (truthy_string_nonempty _ Hc Hk).
  - unfold on_close. destruct (_ !! i); simpl; tauto.
Qed.

(** X2.  Along every run from the initial state the server never uses
    the empty string as a key: no record is stored under it, it is never
    in the presence set, and no open request is attributed to it. *)
Theorem empty_key_never_used (es : list Event) :
  (offlineData (run init es) !! IdStr EmptyString = None) /\
  (IdStr EmptyString ∉ activePlayers (run init es)) /\
  (IdStr EmptyString ∉ closeListeners (run init es)).
Proof.
  induction es as [|e es (IHo & IHa & IHl)] using rev_ind.
  { repeat split; [apply not_elem_of_empty | apply not_elem_of_nil]. }
  rewrite run_snoc. generalize dependent (run init es). intros s IHo IHa IHl.
  split.
  { apply eq_None_not_Some. intros H.
    apply (proj2 (step_offline_keys s e _)) in H as [H | H]; [|congruence].
    rewrite IHo in H. destruct H as [? [=]]. }
  destruct e as [req env | i]; simpl.
  - unfold serve. destruct (dispatch req) as [| | rt]; simpl; try tauto.
    destruct (handler_presence (middleware s req env) rt req env) as [-> ->].
    simpl. unfold presence_add. pose proof (middlewareClientId_nonempty req env).
    split.
    + rewrite elem_of_union, elem_of_singleton. intros [Heq | Hin]; auto.
    + rewrite elem_of_app, list_elem_of_singleton. intros [Hin | Heq]; auto.
  - unfold on_close. destruct (closeListeners s !! i) eqn:Hi; simpl; [|tauto].
    split.
    + unfold presence_delete. rewrite elem_of_difference. tauto.
    + intros Hin. apply IHl. exact (list_elem_of_delete_inv _ _ _ Hin).
Qed.



(** X4.  [/my-offline] from a client with neither header nor address is
    answered [{success: false, error}], yet the middleware has already
    filed the request under the throw-away numeric key: that key is in the
    presence set and holds a record. *)
Theorem my_offline_without_identity (s : State) (req : Request) (env : Env) :
  dispatch req = Routed GetMyOffline ->
  truthy_string (my_offline_id req) = false ->
  snd (serve s req env) = res_json (Failure "No client ID or IP found") /\
  middlewareClientId req env = IdNum (fresh env) /\
  offlineData (fst (serve s req env)) !! IdNum (fresh env)
  = Some (accrue (IdNum (fresh env)) (now env) (offlineData s)) /\
  (IdNum (fresh env) ∈ activePlayers (fst (serve s req env))).
Proof.
  intros Hd Hc.
  assert (Hk : middlewareClientId req env = IdNum (fresh env)).
  { rewrite middlewareClientId_my_offline, Hc. reflexivity. }
  unfold serve. rewrite Hd. simpl. fold (my_offline_id req). rewrite Hc. simpl.
  rewrite Hk. repeat split.
  - apply lookup_insert_eq.
  - unfold presence_add. apply elem_of_union_l, elem_of_singleton. reflexivity.
Qed.

Lemma my_offline_without_identity_witness :
  let req := {| x_client_id := None; x_forwarded_for := Some " , 10.0.0.1";
                ip := Some "10.0.0.1"; remoteAddress := None;
                dispatch := Routed GetMyOffline |} in
  let env := {| now := 1000; handler_now := 1000; fresh := 77 |} in
  snd (serve init req env) = res_json (Failure "No client ID or IP found") /\
  offlineData (fst (serve init req env)) !! IdNum 77
  = Some {| points := Some 0; lastSeen := Some 1000 |}.
Proof.
  destruct (my_offline_without_identity init
              {| x_client_id := None; x_forwarded_for := Some " , 10.0.0.1";
                 ip := Some "10.0.0.1"; remoteAddress := None;
                 dispatch := Routed GetMyOffline |}
              {| now := 1000; handler_now := 1000; fresh := 77 |}
              eq_refl eq_refl)
    as (Hr & _ & Hs & _).
  split; [exact Hr | exact Hs].
Defined.

End ClientKeys.

(** * The offline map under the data endpoints *)

Section OfflineStore.
Import OfflineVariant Notions MoreNotions.

(** X5.  [/get-offline-data] answers "Missing player ID" exactly when
    [playerId] is missing or empty, and "No offline data found" exactly
    when [playerId] is given, had no record before the request and is not
    the requester's own key: the middleware files the requester first, so
    asking for one's own key always finds a record. *)
Theorem get_offline_data_outcomes
    (s : State) (req : Request) (env : Env) (p : option string) :
  dispatch req = Routed (PostGetOfflineData p) ->
  (snd (serve s req env) = res_json (Failure "Missing player ID")
   <-> truthy_ostring p = false) /\
  (snd (serve s req env) = res_json (Failure "No offline data found")
   <-> truthy_ostring p = true /\
       offlineData s !! IdStr (default EmptyString p) = None /\
       middlewareClientId req env <> IdStr (default EmptyString p)) /\
  (truthy_ostring p = true ->
   middlewareClientId req env = IdStr (default EmptyString p) ->
   snd (serve s req env)
   = res_json (OfflineData
                 (accrue (middlewareClientId req env) (now env) (offlineData s)))).
Proof.
  intros Hd. unfold serve. rewrite Hd. simpl.
  destruct (truthy_ostring p) eqn:Hp; simpl.
  - set (q := IdStr (default EmptyString p)).
    destruct (decide (middlewareClientId req env = q)) as [Heq | Hne].
    + rewrite Heq, lookup_insert_eq. simpl.
      split; [split; intros; discriminate|].
      split; [split; [discriminate | intros (_ & _ & H); contradiction]|].
      reflexivity.
    + rewrite lookup_insert_ne by assumption.
      destruct (offlineData s !! q) eqn:Hq; simpl.
      * split; [split; intros; discriminate|].
        split; [split; [discriminate | intros (_ & [=] & _)]|].
        intros _ H. contradiction.
      * split; [split; intros; discriminate|].
        split; [split; [intros _; repeat split; assumption | reflexivity]|].
        intros _ H. contradiction.
  - split; [split; reflexivity|].
    split; [split; [discriminate | intros ([=] & _)]|].
    intros [=].
Qed.

Lemma get_offline_data_outcomes_witness :
  snd (serve init (request_from "kitten" (PostGetOfflineData (Some "kitten")))
         (at_time 9))
  = res_json (OfflineData {| points := Some 0; lastSeen := Some 9 |}) /\
  snd (serve init (request_from "kitten" (PostGetOfflineData (Some "puppy")))
         (at_time 9))
  = res_json (Failure "No offline data found").
Proof.
  split.
  - apply (proj2 (proj2 (get_offline_data_outcomes init
                           (request_from "kitten" (PostGetOfflineData (Some "kitten")))
                           (at_time 9) (Some "kitten") eq_refl)));
      reflexivity.
  - apply (proj1 (proj2 (get_offline_data_outcomes init
                           (request_from "kitten" (PostGetOfflineData (Some "puppy")))
                           (at_time 9) (Some "puppy") eq_refl))).
    repeat split. discriminate.
Defined.

(** X6.  [/save-offline-data] touches at most two records: the
    requester's (through the middleware) and the one named by [playerId].
    When [playerId] is missing or empty, or the payload is missing, it
    answers [{success: false, error}] and stores nothing beyond what the
    middleware did. *)
Theorem save_offline_data_frame
    (s : State) (req : Request) (env : Env)
    (p : option string) (d : option OfflineRecord) :
  dispatch req = Routed (PostSaveOfflineData p d) ->
  (forall k : ClientId,
      k <> middlewareClientId req env ->
      k <> IdStr (default EmptyString p) ->
      offlineData (fst (serve s req env)) !! k = offlineData s !! k) /\
  (truthy_ostring p = false \/ d = None ->
   snd (serve s req env) = res_json (Failure "Missing required fields") /\
   offlineData (fst (serve s req env)) = offlineData (middleware s req env)).
Proof.
  intros Hd. split.
  - intros k Hmw Hp. unfold serve. rewrite Hd.
    rewrite handler_offlineData, middleware_offlineData.
    destruct p as [p|], d as [d|]; simpl in *;
      try (rewrite lookup_insert_ne by congruence; reflexivity).
    destruct (truthy_string p); rewrite ?lookup_insert_ne by congruence;
      reflexivity.
  - intros Hrej. unfold serve. rewrite Hd. simpl.
    destruct p as [p|], d as [d|]; simpl in *; try (split; reflexivity).
    destruct Hrej as [Hp | [=]]. rewrite Hp. split; reflexivity.
Qed.

Lemma save_offline_data_frame_witness :
  let req := request_from "kitten" (PostSaveOfflineData (Some "") None) in
  snd (serve init req (at_time 9)) = res_json (Failure "Missing required fields") /\
  offlineData (fst (serve init req (at_time 9)))
  = offlineData (middleware init req (at_time 9)).
Proof.
  apply (proj2 (save_offline_data_frame init
                  (request_from "kitten" (PostSaveOfflineData (Some "") None))
                  (at_time 9) (Some "") None eq_refl)).
  left. reflexivity.
Defined.

(** X7.  No event ever deletes an offline record: a key that has a record
    keeps one along every run. *)
Theorem records_never_deleted (s : State) (es : list Event) (k : ClientId) :
  is_Some (offlineData s !! k) -> is_Some (offlineData (run s es) !! k).
Proof.
  intros Hs. induction es as [|e es IH] using rev_ind; [exact Hs|].
  rewrite run_snoc. apply (proj1 (step_offline_keys _ e k)), IH.
Qed.

Lemma records_never_deleted_witness :
  is_Some
    (offlineData
       (run (middleware init (request_from "kitten" GetRoot) (at_time 5))
          [Closed 0;
           Incoming (request_from "puppy"
                       (PostSaveOfflineData (Some "puppy")
                          (Some {| points := Some 1; lastSeen := None |})))
                    (at_time 6)])
     !! IdStr "kitten").
Proof.
  apply (records_never_deleted
           (middleware init (request_from "kitten" GetRoot) (at_time 5))).
  eexists. reflexivity.
Defined.

End OfflineStore.

(** * Presence when requests of one key do not overlap *)

Section PresenceSets.
Implicit Types (l : list ClientId) (active : gset ClientId) (k : ClientId).

Lemma presence_add_open l active k :
  active = list_to_set l -> presence_add k active = list_to_set (l ++ [k]).
Proof.
  intros ->. unfold presence_add. rewrite list_to_set_app_L. simpl.
  rewrite (right_id_L ∅ (∪)). apply (comm_L (∪)).
Qed.

Lemma presence_delete_open l active k (i : nat) :
  NoDup l -> l !! i = Some k -> active = list_to_set l ->
  presence_delete k active = list_to_set (delete i l).
Proof.
  intros Hnd Hi ->. unfold presence_delete.
  rewrite <- (take_drop_middle l i k Hi) in Hnd |- * at 1.
  rewrite delete_take_drop.
  apply NoDup_app in Hnd as (_ & Hl & Hr).
  apply NoDup_cons in Hr as [Hr _].
  assert (Hl' : k ∉ take i l) by (intros H; exact (Hl k H (list_elem_of_here _ _))).
  rewrite !list_to_set_app_L, list_to_set_cons.
  apply set_eq. intros x.
  rewrite elem_of_difference, !elem_of_union, elem_of_singleton,
    !elem_of_list_to_set.
  split.
  - intros [[H | [H | H]] Hne]; [left; exact H | contradiction | right; exact H].
  - intros [H | H]; (split; [tauto | intros ->; contradiction]).
Qed.

Lemma presence_size_open l :
  NoDup l -> presence_size (list_to_set l) = Z.of_nat (length l).
Proof. intros H. unfold presence_size. rewrite size_list_to_set by exact H. reflexivity. Qed.

Lemma size_list_to_set_le l : (size (list_to_set l : gset ClientId) <= length l)%nat.
Proof.
  induction l as [|x l IH]; [reflexivity|].
  rewrite list_to_set_cons.
  destruct (decide (x ∈ (list_to_set l : gset ClientId))) as [Hin | Hout].
  - replace ({[x]} ∪ list_to_set l) with (list_to_set l : gset ClientId).
    + simpl. lia.
    + apply set_eq. intros y. rewrite elem_of_union, elem_of_singleton.
      split; [tauto | intros [-> | H]; assumption].
  - rewrite size_union.
    + rewrite size_singleton. simpl. lia.
    + intros y Hy1 Hy2. apply elem_of_singleton in Hy1 as ->. contradiction.
Qed.

Lemma presence_size_le_open l active :
  (forall k, k ∈ active -> k ∈ l) ->
  0 <= presence_size active <= Z.of_nat (length l).
Proof.
  intros Hsub. unfold presence_size. split; [lia|].
  apply Nat2Z.inj_le.
  transitivity (size (list_to_set l : gset ClientId)).
  - apply subseteq_size. intros k Hk. apply elem_of_list_to_set, Hsub, Hk.
  - apply size_list_to_set_le.
Qed.

End PresenceSets.

Section PresenceExact.
Import OfflineVariant Notions MoreNotions.

Lemma step_presence_exact (s : State) (e : Event) :
  NoDup (closeListeners s) ->
  activePlayers s = list_to_set (closeListeners s) ->
  currentPlayers s = Z.of_nat (length (closeListeners s)) ->
  NoDup (closeListeners (step s e)) ->
  activePlayers (step s e) = list_to_set (closeListeners (step s e)) /\
  currentPlayers (step s e) = Z.of_nat (length (closeListeners (step s e))).
Proof.
  intros Hnd Ha Hc. destruct e as [req env | i]; simpl.
  - unfold serve. destruct (dispatch req) as [| | rt]; simpl; [tauto | tauto |].
    rewrite handler_currentPlayers.
    destruct (handler_presence (middleware s req env) rt req env) as [-> ->].
    simpl. intros Hnd'.
    rewrite (presence_add_open _ _ (middlewareClientId req env) Ha).
    split; [reflexivity | apply presence_size_open, Hnd'].
  - unfold on_close. destruct (closeListeners s !! i) as [k|] eqn:Hi; simpl;
      [|tauto].
    intros Hnd'. rewrite (presence_delete_open _ _ k i Hnd Hi Ha).
    split; [reflexivity | apply presence_size_open, Hnd'].
Qed.

Lemma data_step_presence_exact (s : DataVariant.State) (e : DataVariant.Event) :
  NoDup (DataVariant.closeListeners s) ->
  DataVariant.activePlayers s = list_to_set (DataVariant.closeListeners s) ->
  DataVariant.currentPlayers s = Z.of_nat (length (DataVariant.closeListeners s)) ->
  NoDup (DataVariant.closeListeners (DataVariant.step s e)) ->
  DataVariant.activePlayers (DataVariant.step s e)
  = list_to_set (DataVariant.closeListeners (DataVariant.step s e)) /\
  DataVariant.currentPlayers (DataVariant.step s e)
  = Z.of_nat (length (DataVariant.closeListeners (DataVariant.step s e))).
Proof.
  intros Hnd Ha Hc. destruct e as [req env | i]; simpl.
  - unfold DataVariant.serve.
    destruct (DataVariant.dispatch req) as [| | rt]; simpl; [tauto | tauto |].
    assert (Hh : forall s1,
               DataVariant.activePlayers (fst (DataVariant.handler s1 rt))
               = DataVariant.activePlayers s1 /\
               DataVariant.closeListeners (fst (DataVariant.handler s1 rt))
               = DataVariant.closeListeners s1 /\
               DataVariant.currentPlayers (fst (DataVariant.handler s1 rt))
               = DataVariant.currentPlayers s1).
    { intros s1. destruct rt as [| | | t ts | |]; simpl; try tauto.
      destruct t, ts; simpl; try tauto. destruct (_ && _); simpl; tauto. }
    destruct (Hh (DataVariant.middleware s req env)) as (-> & -> & ->).
    simpl. intros Hnd'.
    rewrite (presence_add_open _ _ (DataVariant.middlewareClientId req env) Ha).
    split; [reflexivity | apply presence_size_open, Hnd'].
  - unfold DataVariant.on_close.
    destruct (DataVariant.closeListeners s !! i) as [k|] eqn:Hi; simpl; [|tauto].
    intros Hnd'. rewrite (presence_delete_open _ _ k i Hnd Hi Ha).
    split; [reflexivity | apply presence_size_open, Hnd'].
Qed.

(** X8.  As long as no request starts while another request with the
    same key is still open, the presence set is exactly the set of keys
    with an open request and [currentPlayers] is the number of open
    requests, in both variants. *)
Theorem presence_exact_without_overlap :
  (forall es : list Event,
      overlap_free init es = true ->
      activePlayers (run init es) = list_to_set (closeListeners (run init es)) /\
      currentPlayers (run init es)
      = Z.of_nat (length (closeListeners (run init es)))) /\
  (forall (d : DataVariant.Data) (es : list DataVariant.Event),
      MoreDataNotions.overlap_free (DataVariant.init d) es = true ->
      let s := DataVariant.run (DataVariant.init d) es in
      DataVariant.activePlayers s = list_to_set (DataVariant.closeListeners s) /\
      DataVariant.currentPlayers s
      = Z.of_nat (length (DataVariant.closeListeners s))).
Proof.
  split.
  - assert (H : forall es s,
               NoDup (closeListeners s) ->
               activePlayers s = list_to_set (closeListeners s) ->
               currentPlayers s = Z.of_nat (length (closeListeners s)) ->
               overlap_free s es = true ->
               activePlayers (run s es) = list_to_set (closeListeners (run s es)) /\
               currentPlayers (run s es)
               = Z.of_nat (length (closeListeners (run s es)))).
    { induction es as [|e es IH]; intros s Hnd Ha Hc Hov; [split; assumption|].
      simpl in Hov. apply andb_prop in Hov as [Hnd' Hov].
      apply bool_decide_eq_true in Hnd'.
      destruct (step_presence_exact s e Hnd Ha Hc Hnd') as [Ha' Hc'].
      exact (IH (step s e) Hnd' Ha' Hc' Hov). }
    intros es. apply H; [apply NoDup_nil_2 | reflexivity | reflexivity].
  - assert (H : forall es s,
               NoDup (DataVariant.closeListeners s) ->
               DataVariant.activePlayers s
               = list_to_set (DataVariant.closeListeners s) ->
               DataVariant.currentPlayers s
               = Z.of_nat (length (DataVariant.closeListeners s)) ->
               MoreDataNotions.overlap_free s es = true ->
               DataVariant.activePlayers (DataVariant.run s es)
               = list_to_set (DataVariant.closeListeners (DataVariant.run s es)) /\
               DataVariant.currentPlayers (DataVariant.run s es)
               = Z.of_nat (length (DataVariant.closeListeners (DataVariant.run s es)))).
    { induction es as [|e es IH]; intros s Hnd Ha Hc Hov; [split; assumption|].
      simpl in Hov. apply andb_prop in Hov as [Hnd' Hov].
      apply bool_decide_eq_true in Hnd'.
      destruct (data_step_presence_exact s e Hnd Ha Hc Hnd') as [Ha' Hc'].
      exact (IH (DataVariant.step s e) Hnd' Ha' Hc' Hov). }
    intros d es. apply H; [apply NoDup_nil_2 | reflexivity | reflexivity].
Qed.

Lemma presence_exact_without_overlap_witness :
  let es := [Incoming (request_from "kitten" GetPlayerCountStream) (at_time 1);
             Incoming (request_from "puppy" GetPlayerCount) (at_time 2);
             Closed 1;
             Incoming (request_from "puppy" GetReviews) (at_time 3)] in
  activePlayers (run init es) = list_to_set (closeListeners (run init es)) /\
  currentPlayers (run init es) = Z.of_nat (length (closeListeners (run init es))).
Proof.
  apply (proj1 presence_exact_without_overlap). vm_compute. reflexivity.
Defined.

(** X9.  Along every run of the offline-data variant [currentPlayers] is
    the size of the presence set, lies between 0 and the number of open
    requests, and never exceeds [totalPlayers]. *)
Theorem currentPlayers_bounds (es : list Event) :
  let s := run init es in
  currentPlayers s = presence_size (activePlayers s) /\
  0 <= currentPlayers s <= Z.of_nat (length (closeListeners s)) /\
  currentPlayers s <= totalPlayers s.
Proof.
  intros s. subst s.
  split; [apply currentPlayers_is_size|].
  split.
  { rewrite currentPlayers_is_size. apply presence_size_le_open.
    intros k. apply active_has_open_request. }
  induction es as [|e es IH] using rev_ind; [reflexivity|].
  rewrite run_snoc. rewrite step_totalPlayers.
  pose proof (currentPlayers_is_size es) as Hsz.
  generalize dependent (run init es). intros s IH Hsz.
  assert (Hroot : 0 <= (if is_root_load e then 1 else 0))
    by (destruct (is_root_load e); lia).
  destruct (reaches_middleware e) eqn:Hr; [lia|].
  assert (Hc : currentPlayers (step s e) <= currentPlayers s).
  { destruct e as [req env | i]; simpl in *.
    - unfold serve. destruct (dispatch req); simpl; [lia | lia | discriminate].
    - unfold on_close. destruct (_ !! i); simpl; [|lia].
      rewrite Hsz. apply presence_delete_size. }
  lia.
Qed.

(** X10.  [/player-count] always counts the requester: in the
    offline-data variant it answers [{current, total}] with
    [1 <= current <= total]; in [src/server.js] it answers with
    [current >= 1] and the stored [totalPlayers], which the request does
    not change. *)
Theorem player_count_counts_requester :
  (forall (s : State) (req : Request) (env : Env),
      dispatch req = Routed GetPlayerCount ->
      exists c t,
        snd (serve s req env) = res_json (Counts c t) /\
        c = presence_size (presence_add (middlewareClientId req env) (activePlayers s)) /\
        1 <= c <= t) /\
  (forall (s : DataVariant.State) (req : DataVariant.Request) (env : DataVariant.Env),
      DataVariant.dispatch req = Routed DataVariant.GetPlayerCount ->
      exists c,
        snd (DataVariant.serve s req env)
        = DataVariant.res_json
            (DataVariant.Counts c (DataVariant.totalPlayers (DataVariant.data s))) /\
        1 <= c).
Proof.
  assert (Hpos : forall k (active : gset ClientId),
             1 <= presence_size (presence_add k active)).
  { intros k active. unfold presence_size, presence_add.
    assert (size ({[k]} : gset ClientId) <= size ({[k]} ∪ active))%nat
      by (apply subseteq_size, union_subseteq_l).
    rewrite size_singleton in *. lia. }
  split.
  - intros s req env Hd. unfold serve. rewrite Hd. simpl.
    eexists _, _. split; [reflexivity|]. split; [reflexivity|].
    pose proof (Hpos (middlewareClientId req env) (activePlayers s)). lia.
  - intros s req env Hd. unfold DataVariant.serve. rewrite Hd. simpl.
    eexists. split; [reflexivity|]. apply Hpos.
Qed.

Lemma player_count_counts_requester_witness :
  exists c t,
    snd (serve init (request_from "kitten" GetPlayerCount) (at_time 1))
    = res_json (Counts c t) /\
    1 <= c <= t.
Proof.
  destruct (proj1 player_count_counts_requester init
              (request_from "kitten" GetPlayerCount) (at_time 1) eq_refl)
    as (c & t & Hr & _ & Hb).
  exists c, t. split; assumption.
Defined.

End PresenceExact.

(** * More on the review log *)

Section ReviewLog.
Import OfflineVariant Notions MoreNotions.

Lemma latest_reviews_push (rs : list Review) (r : Review) :
  exists rest, latest_reviews (push_review rs r) = r :: rest.
Proof.
  rewrite push_review_slice. unfold latest_reviews.
  set (l := slice_last 100 (rs ++ [r])).
  assert (Hl : last l = Some r) by (apply slice_last_snoc; lia).
  apply last_Some in Hl as [l' ->].
  unfold slice_last. rewrite length_app. simpl.
  rewrite drop_app_le by lia. rewrite reverse_snoc. eexists. reflexivity.
Qed.

Lemma step_reviews_exact (s : State) (e : Event) :
  reviews (step s e)
  = match appended_review e with
    | Some r => push_review (reviews s) r
    | None => reviews s
    end.
Proof.
  destruct e as [req env | i]; simpl.
  - unfold serve. destruct (dispatch req) as [| | rt]; simpl; try reflexivity.
    destruct rt as [| | | t ts | | p d | p | |]; simpl; try reflexivity.
    + destruct t as [t|], ts as [ts|]; simpl; try reflexivity.
      unfold accepted. simpl. destruct (_ && _); reflexivity.
    + destruct p, d; simpl; try reflexivity. destruct (truthy_string _); reflexivity.
    + destruct (truthy_ostring p); simpl; [|reflexivity].
      destruct (_ !! _); reflexivity.
    + destruct (truthy_string _); reflexivity.
  - unfold on_close. destruct (_ !! i); reflexivity.
Qed.

Lemma data_step_reviews_exact (s : DataVariant.State) (e : DataVariant.Event) :
  DataVariant.reviews (DataVariant.data (DataVariant.step s e))
  = match MoreDataNotions.appended_review e with
    | Some r => push_review (DataVariant.reviews (DataVariant.data s)) r
    | None => DataVariant.reviews (DataVariant.data s)
    end.
Proof.
  destruct e as [req env | i]; simpl.
  - unfold DataVariant.serve.
    destruct (DataVariant.dispatch req) as [| | rt]; simpl; try reflexivity.
    destruct rt as [| | | t ts | |]; simpl; try reflexivity.
    destruct t as [t|], ts as [ts|]; simpl; try reflexivity.
    unfold accepted. simpl. destruct (_ && _); reflexivity.
  - unfold DataVariant.on_close. destruct (_ !! i); reflexivity.
Qed.

(** X11.  A review that [/submit-review] accepts is the first entry of
    the very next [/get-reviews] answer, in both variants (with its text
    trimmed in [src/server.js]). *)
Theorem submitted_review_listed_first :
  (forall (s : State) (req1 req2 : Request) (env1 env2 : Env)
          (t : string) (ts : Stamp),
      dispatch req1 = Routed (PostSubmitReview (Some t) (Some ts)) ->
      accepted (Some t) (Some ts) = true ->
      dispatch req2 = Routed GetReviews ->
      exists rest,
        snd (serve (fst (serve s req1 env1)) req2 env2)
        = res_json (ReviewList ({| text := t; timestamp := ts |} :: rest))) /\
  (forall (s : DataVariant.State) (req1 req2 : DataVariant.Request)
          (env1 env2 : DataVariant.Env) (t : string) (ts : Stamp),
      DataVariant.dispatch req1
      = Routed (DataVariant.PostSubmitReview (Some t) (Some ts)) ->
      accepted (Some t) (Some ts) = true ->
      DataVariant.dispatch req2 = Routed DataVariant.GetReviews ->
      exists rest,
        snd (DataVariant.serve (fst (DataVariant.serve s req1 env1)) req2 env2)
        = DataVariant.res_json
            (DataVariant.ReviewList ({| text := trim t; timestamp := ts |} :: rest))).
Proof.
  split.
  - intros s req1 req2 env1 env2 t ts Hd1 Hacc Hd2.
    rewrite (serve_submit_accepted s req1 env1 t ts Hd1 Hacc).
    unfold serve. rewrite Hd2. simpl.
    destruct (latest_reviews_push (reviews s) {| text := t; timestamp := ts |})
      as [rest ->].
    exists rest. reflexivity.
  - intros s req1 req2 env1 env2 t ts Hd1 Hacc Hd2.
    rewrite (data_serve_submit_accepted s req1 env1 t ts Hd1 Hacc).
    unfold DataVariant.serve. rewrite Hd2. simpl.
    destruct (latest_reviews_push (DataVariant.reviews (DataVariant.data s))
                {| text := trim t; timestamp := ts |})
      as [rest ->].
    exists rest. reflexivity.
Qed.

Lemma submitted_review_listed_first_witness :
  exists rest,
    snd (serve
           (fst (serve init
                   (request_from "kitten"
                      (PostSubmitReview (Some "purr") (Some (StampNum 7))))
                   (at_time 1)))
           (request_from "puppy" GetReviews) (at_time 2))
    = res_json (ReviewList ({| text := "purr"; timestamp := StampNum 7 |} :: rest)).
Proof.
  apply (proj1 submitted_review_listed_first init
           (request_from "kitten" (PostSubmitReview (Some "purr") (Some (StampNum 7))))
           (request_from "puppy" GetReviews) (at_time 1) (at_time 2)
           "purr" (StampNum 7));
    reflexivity.
Defined.

(** X12.  The review log changes only through an accepted
    [/submit-review]: every other event, rejected submissions and
    [/get-reviews] included, leaves it as it was, in both variants. *)
Theorem review_log_changes_only_on_accepted_submit :
  (forall (s : State) (e : Event),
      reviews (step s e)
      = match appended_review e with
        | Some r => push_review (reviews s) r
        | None => reviews s
        end) /\
  (forall (s : DataVariant.State) (e : DataVariant.Event),
      DataVariant.reviews (DataVariant.data (DataVariant.step s e))
      = match MoreDataNotions.appended_review e with
        | Some r => push_review (DataVariant.reviews (DataVariant.data s)) r
        | None => DataVariant.reviews (DataVariant.data s)
        end).
Proof. split; [exact step_reviews_exact | exact data_step_reviews_exact]. Qed.

Lemma push_review_Forall (P : Review -> Prop) (rs : list Review) (r : Review) :
  Forall P rs -> P r -> Forall P (push_review rs r).
Proof.
  intros Hrs Hr. rewrite push_review_slice. unfold slice_last.
  apply Forall_drop, Forall_app. split; [exact Hrs|].
  apply Forall_cons. split; [exact Hr | apply Forall_nil_2].
Qed.

(** X13.  [src/server.js] stores review texts trimmed: starting from a
    log of trimmed texts (the empty one in particular), every text in the
    log is unchanged by [trim] after every run.  The guard tests the text
    before trimming it, so a text of white space only is accepted and
    stored as the empty string. *)
Theorem stored_review_texts_are_trimmed :
  (forall (d : DataVariant.Data) (es : list DataVariant.Event),
      Forall (fun r => trim (text r) = text r) (DataVariant.reviews d) ->
      Forall (fun r => trim (text r) = text r)
        (DataVariant.reviews
           (DataVariant.data (DataVariant.run (DataVariant.init d) es)))) /\
  (forall (s : DataVariant.State) (req : DataVariant.Request)
          (env : DataVariant.Env) (t : string) (ts : Stamp),
      DataVariant.dispatch req
      = Routed (DataVariant.PostSubmitReview (Some t) (Some ts)) ->
      truthy_string t = true -> truthy_stamp ts = true ->
      trim t = EmptyString ->
      snd (DataVariant.serve s req env) = DataVariant.res_json DataVariant.Success /\
      last (DataVariant.reviews (DataVariant.data (fst (DataVariant.serve s req env))))
      = Some {| text := EmptyString; timestamp := ts |}).
Proof.
  split.
  - intros d es Hd. unfold DataVariant.run.
    induction es as [|e es IH] using rev_ind; [exact Hd|].
    rewrite foldl_snoc, data_step_reviews_exact.
    destruct (MoreDataNotions.appended_review e) as [r|] eqn:Hr; [|exact IH].
    apply push_review_Forall; [exact IH|].
    destruct e as [req env | i]; [|discriminate]. simpl in Hr.
    destruct (DataVariant.dispatch req) as [| | rt]; try discriminate.
    destruct rt as [| | | [t|] [ts|] | |]; try discriminate.
    destruct (accepted (Some t) (Some ts)); [|discriminate].
    injection Hr as <-. simpl. apply trim_idempotent.
  - intros s req env t ts Hd Ht Hts Hblank.
    rewrite (data_serve_submit_accepted s req env t ts Hd)
      by (unfold accepted; simpl; rewrite Ht, Hts; reflexivity).
    simpl. split; [reflexivity|]. rewrite push_review_last, Hblank. reflexivity.
Qed.

Lemma stored_review_texts_are_trimmed_witness :
  let req := DataNotions.request_from "kitten"
               (DataVariant.PostSubmitReview (Some "   ") (Some (StampNum 7))) in
  let out := DataVariant.serve (DataVariant.init DataVariant.initial_data) req
               DataNotions.any_env in
  snd out = DataVariant.res_json DataVariant.Success /\
  last (DataVariant.reviews (DataVariant.data (fst out)))
  = Some {| text := EmptyString; timestamp := StampNum 7 |}.
Proof.
  apply (proj2 stored_review_texts_are_trimmed
           (DataVariant.init DataVariant.initial_data)
           (DataNotions.request_from "kitten"
              (DataVariant.PostSubmitReview (Some "   ") (Some (StampNum 7))))
           DataNotions.any_env "   " (StampNum 7));
    reflexivity.
Defined.

End ReviewLog.

(** * More on accrual *)

Section AccrualRuns.
Import OfflineVariant Notions MoreNotions.









End AccrualRuns.

(** * More on loading the offline map *)

Section LoadedRecords.
Import OfflineVariant Notions.






End LoadedRecords.

(** * Saving the store file and starting again *)

Section FoldInsert.
Context `{Countable K} {V : Type}.
Implicit Types (kvs : list (K * V)) (acc : gmap K V).



End FoldInsert.

Section DataRestart.
Import DataVariant DataNotions DataPersistence.

Lemma serve_without_save (s : State) (req : Request) (env : Env) :
  saves req = false -> data (fst (serve s req env)) = data s.
Proof.
  unfold saves, serve. destruct (dispatch req) as [| | rt]; try reflexivity.
  destruct rt as [| | | t ts | |]; simpl; try reflexivity; try discriminate.
  intros Hacc. destruct t as [t|], ts as [ts|]; try reflexivity.
  unfold accepted in Hacc. simpl in Hacc. rewrite Hacc. reflexivity.
Qed.

Lemma run_saving_snoc (stringify : Data -> string) (sf : State * FileState)
    (es : list DiskEvent) (e : DiskEvent) :
  run_saving stringify sf (es ++ [e])
  = step_saving stringify (run_saving stringify sf es) e.
Proof. unfold run_saving. apply foldl_snoc. Qed.

Lemma run_saving_synced (stringify : Data -> string) (s : State) (f : FileState)
    (es : list DiskEvent) :
  all_written es ->
  (data (fst (run_saving stringify (s, f) es)) = data s /\
   file (snd (run_saving stringify (s, f) es)) = file f) \/
  file (snd (run_saving stringify (s, f) es))
  = Some (stringify (data (fst (run_saving stringify (s, f) es)))).
Proof.
  unfold all_written. induction es as [|e es IH] using rev_ind; intros Hw.
  { left. split; reflexivity. }
  apply Forall_app in Hw as [Hw He]. apply Forall_cons in He as [He _].
  rewrite run_saving_snoc. specialize (IH Hw).
  destruct (run_saving stringify (s, f) es) as [s1 f1]. simpl in IH.
  destruct e as [req env w | i]; simpl.
  - destruct w as [|err remains]; [|contradiction].
    destruct (saves req) eqn:Hs; simpl; [right; reflexivity|].
    rewrite (serve_without_save s1 req env Hs). exact IH.
  - assert (Hd : data (on_close s1 i) = data s1)
      by (unfold on_close; destruct (_ !! i); reflexivity).
    rewrite Hd. exact IH.
Qed.

(** X18.  In [src/server.js], as long as every write of the store file
    succeeds, either nothing was saved and [data] is what it was, or the
    file holds the serialisation of the current [data]; starting again
    from that file (with [JSON.parse] undoing [JSON.stringify]) restores
    [totalPlayers] and the review log exactly, without any error. *)
Theorem saved_data_survives_restart
    (stringify : Data -> string) (parse : string -> outcome RawDoc)
    (s : State) (f : FileState) (es : list DiskEvent) :
  all_written es ->
  let sf' := run_saving stringify (s, f) es in
  parse (stringify (data (fst sf'))) = Return (doc_of (data (fst sf'))) ->
  (data (fst sf') = data s /\ file (snd sf') = file f) \/
  (file (snd sf') = Some (stringify (data (fst sf'))) /\
   loadData (disk_of (snd sf') parse)
   = Return {| loaded_data := data (fst sf'); console_errors := [] |}).
Proof.
  intros Hw sf' Hparse.
  destruct (run_saving_synced stringify s f es Hw) as [Hsame | Hfile];
    [left; exact Hsame | right].
  fold sf' in Hfile. split; [exact Hfile|].
  unfold loadData, disk_of. simpl. rewrite Hfile. simpl.
  rewrite Hparse. simpl. destruct (data (fst sf')); reflexivity.
Qed.

Lemma saved_data_survives_restart_witness :
  let stringify := fun _ : Data => "{...}" in
  let parse := fun _ : string =>
                 Return (doc_of {| totalPlayers := 1; reviews := [] |}) in
  let sf' := run_saving stringify
               (init initial_data, {| file := None; console := [] |})
               [Serving (request_from "kitten" GetRoot) any_env Written;
                Closing 0] in
  (data (fst sf') = data (init initial_data) /\ file (snd sf') = None) \/
  (file (snd sf') = Some (stringify (data (fst sf'))) /\
   loadData (disk_of (snd sf') parse)
   = Return {| loaded_data := data (fst sf'); console_errors := [] |}).
Proof.
  apply (saved_data_survives_restart
           (fun _ : Data => "{...}")
           (fun _ : string => Return (doc_of {| totalPlayers := 1; reviews := [] |}))
           (init initial_data) {| file := None; console := [] |}
           [Serving (request_from "kitten" GetRoot) any_env Written; Closing 0]).
  - repeat constructor.
  - reflexivity.
Defined.

End DataRestart.

Section OfflineRestart.
Import OfflineVariant Notions OfflinePersistence.





End OfflineRestart.

(** * Counting page loads, and the first request after a restart *)

Section Restart.
Import OfflineVariant Notions MoreNotions.

(** X20.  In [src/server.js], [totalPlayers] counts the root-page loads:
    after any run it is its start value plus the number of requests
    handled by [GET /]. *)
Theorem totalPlayers_counts_root_loads
    (d : DataVariant.Data) (es : list DataVariant.Event) :
  DataVariant.totalPlayers
    (DataVariant.data (DataVariant.run (DataVariant.init d) es))
  = DataVariant.totalPlayers d + MoreDataNotions.root_loads es.
Proof.
  unfold DataVariant.run, MoreDataNotions.root_loads.
  induction es as [|e es IH] using rev_ind; [simpl; lia|].
  rewrite !foldl_snoc, data_step_totalPlayers, IH. lia.
Qed.



End Restart.
